(** * Sentence-similarity service: model and verification

    A shallow embedding of

      - [services/main.py]: module-level model loading, the Flask handlers
        [calculate_distances] and [health];
      - [services/download_model.py]: the provisioning script
        [download_model].

    The Python code is glue around three third-party libraries
    (sentence-transformers, scikit-learn, Flask) and the operating system.
    Every call that leaves the source files is an _event_; a program is a
    finite tree of events, and it is run against an oracle that answers each
    event from the history of the calls made so far.  Nothing is assumed
    about the oracle: what a theorem needs of a library is a hypothesis of
    that theorem. *)

From Stdlib Require Import String Ascii ZArith List Bool Lia.
From Stdlib Require Import QArith Lqa Floats.
From stdpp Require Import base option list strings gmap.

Set Warnings "-register-all".

Local Open Scope string_scope.
Local Open Scope list_scope.

(** ** Python exceptions *)

(** The exceptions modelled are the subclasses of [Exception]; the handlers
    only tell [werkzeug.exceptions.BadRequest] apart from the others.  What
    derives from [BaseException] alone ([KeyboardInterrupt], [SystemExit])
    passes through [except Exception] and is outside the model: every
    statement below about a call that raises is about these classes. *)
Inductive exn_class : Type :=
  | BadRequest
  | TypeError
  | IndexError
  | KeyError
  | ValueError
  | RuntimeError
  | OSError.

(** [exn_str] is what [str(e)] gives. *)
Record exn : Type := Exn { exn_cls : exn_class; exn_str : string }.

Definition is_BadRequest (e : exn) : bool :=
  match exn_cls e with BadRequest => true | _ => false end.

(** The result of a Python expression: a value or a raised exception. *)
Inductive outcome (A : Type) : Type :=
  | Return (a : A)
  | Raised (e : exn).
Arguments Return {A} a.
Arguments Raised {A} e.

Section Service.

(** [F] stands for the IEEE scalars the numeric libraries compute with;
    [fone] is the literal [1] and [fsub] the subtraction of
    [1 - similarities].  [Model] is the [SentenceTransformer] object. *)
Context {F Model : Type}.
Variable fone : F.
Variable fsub : F -> F -> F.

(** ** Python values (what [json] parses to and [jsonify] prints) *)

Inductive pyobj : Type :=
  | PNone
  | PBool (b : bool)
  | PInt (n : Z)
  | PFloat (x : F)
  | PStr (s : string)
  | PList (l : list pyobj)
  | PDict (d : gmap string pyobj).

Definition matrix : Type := list (list F).

(** ** Events: the calls that leave the source files *)

Inductive Event : Type -> Type :=
  | Print (s : string) : Event unit
  | Input (prompt : string) : Event string
  | PathExists (p : string) : Event bool
  | Makedirs (p : string) (exist_ok : bool) : Event unit
  | SentenceTransformer (name_or_path : string) : Event Model
  | Save (m : Model) (path : string) : Event unit
  | Encode (m : Model) (sentences : list pyobj) : Event matrix
  | CosineSimilarity (X Y : matrix) : Event matrix.

(** A program performs an event and continues with its outcome, returns,
    or raises. *)
Inductive prog (A : Type) : Type :=
  | Ret (a : A)
  | Raise (e : exn)
  | Vis {X : Type} (ev : Event X) (k : outcome X -> prog A).
Arguments Ret {A} a.
Arguments Raise {A} e.
Arguments Vis {A X} ev k.

Fixpoint bind {A B : Type} (p : prog A) (f : A -> prog B) : prog B :=
  match p with
  | Ret a => f a
  | Raise e => Raise e
  | Vis ev k => Vis ev (fun r => bind (k r) f)
  end.

#[local] Instance prog_ret : MRet prog := @Ret.
#[local] Instance prog_bind : MBind prog := fun A B f p => bind p f.

Definition lift {A : Type} (o : outcome A) : prog A :=
  match o with
  | Return a => Ret a
  | Raised e => Raise e
  end.

Definition call {X : Type} (ev : Event X) : prog X := Vis ev lift.

(** [try: p  except Exception as e: h e], on the exceptions of [exn], all
    of which derive from [Exception] *)
Fixpoint try_except {A : Type} (p : prog A) (h : exn -> prog A) : prog A :=
  match p with
  | Ret a => Ret a
  | Raise e => h e
  | Vis ev k => Vis ev (fun r => try_except (k r) h)
  end.

(** ** Running a program *)

Inductive call_record : Type :=
  | Called {X : Type} (ev : Event X) (r : outcome X).

Definition trace : Type := list call_record.

(** The world outside the source: it answers an event knowing every call
    made before it. *)
Definition oracle : Type := trace -> forall X : Type, Event X -> outcome X.

(** [run env p t] runs [p] after the calls [t]: its outcome, and the calls
    it made, in order. *)
Fixpoint run {A : Type} (env : oracle) (p : prog A) (t : trace)
  : outcome A * trace :=
  match p with
  | Ret a => (Return a, [])
  | Raise e => (Raised e, [])
  | Vis ev k =>
      let r := env t _ ev in
      let '(o, calls) := run env (k r) (t ++ [Called ev r]) in
      (o, Called ev r :: calls)
  end.

(** ** Python operators used by the handler *)

Definition is_None (v : pyobj) : bool :=
  match v with PNone => true | _ => false end.

(** [isinstance(v, str)] *)
Definition isinstance_str (v : pyobj) : bool :=
  match v with PStr _ => true | _ => false end.

(** [v == key] for a [str] key *)
Definition eq_str (key : string) (v : pyobj) : bool :=
  match v with PStr s => String.eqb s key | _ => false end.

Definition not_iterable (ty : string) : exn :=
  Exn TypeError ("argument of type '" ++ ty ++ "' is not iterable").

Definition not_subscriptable (ty : string) : exn :=
  Exn TypeError ("'" ++ ty ++ "' object is not subscriptable").

(** [key in data]: key membership on a dict, element membership on a list,
    substring test on a str, [TypeError] on the other JSON values. *)
Definition contains (key : string) (data : pyobj) : outcome bool :=
  match data with
  | PDict d => Return (match d !! key with Some _ => true | None => false end)
  | PList l => Return (existsb (eq_str key) l)
  | PStr s => Return (match index 0 key s with Some _ => true | None => false end)
  | PNone => Raised (not_iterable "NoneType")
  | PBool _ => Raised (not_iterable "bool")
  | PInt _ => Raised (not_iterable "int")
  | PFloat _ => Raised (not_iterable "float")
  end.

(** [data[key]] for a [str] key *)
Definition getitem (data : pyobj) (key : string) : outcome pyobj :=
  match data with
  | PDict d =>
      match d !! key with
      | Some v => Return v
      | None => Raised (Exn KeyError ("'" ++ key ++ "'"))
      end
  | PList _ =>
      Raised (Exn TypeError "list indices must be integers or slices, not str")
  | PStr _ => Raised (Exn TypeError "string indices must be integers")
  | PNone => Raised (not_subscriptable "NoneType")
  | PBool _ => Raised (not_subscriptable "bool")
  | PInt _ => Raised (not_subscriptable "int")
  | PFloat _ => Raised (not_subscriptable "float")
  end.

(** [K[0]] on a two-dimensional array *)
Definition row0 (K : matrix) : outcome (list F) :=
  match K with
  | r :: _ => Return r
  | [] =>
      Raised (Exn IndexError "index 0 is out of bounds for axis 0 with size 0")
  end.

(** ** The Flask side *)

(** What the handler reads of [flask.request]: the [is_json] property and
    the result of [get_json(force=True)]. *)
Record Request : Type := { is_json : bool; get_json : outcome pyobj }.

(** A view returns [(jsonify(body), status)]. *)
Definition response : Type := pyobj * Z.

Definition jsonify (d : gmap string pyobj) : pyobj := PDict d.

Definition bad_request (msg : string) : response :=
  (jsonify {[ "error" := PStr msg ]}, 400%Z).

(** main.py, lines 101-114: encode, compare, turn similarity into
    distance. *)
Definition distances_of (model : Model) (spec : pyobj)
    (candidates : list pyobj) : prog (list F) :=
  spec_embedding ← call (Encode model [spec]);
  candidate_embeddings ← call (Encode model candidates);
  K ← call (CosineSimilarity spec_embedding candidate_embeddings);
  similarities ← lift (row0 K);
  let distances := map (fsub fone) similarities in
  Ret distances.

(** main.py, lines 59-119 *)
Definition calculate_distances (model : Model) (request : Request)
  : prog response :=
  try_except
    (if negb (is_json request) then
       Ret (bad_request "Content-Type must be application/json")
     else
       match get_json request with
       | Raised e =>
           if is_BadRequest e then
             Ret (jsonify {[ "error" := PStr "Invalid JSON format";
                             "details" := PStr (exn_str e) ]}, 400%Z)
           else
             Ret (jsonify {[ "error" := PStr "Failed to parse JSON";
                             "details" := PStr (exn_str e) ]}, 400%Z)
       | Return data =>
           if is_None data then
             Ret (bad_request "Request body is empty or invalid JSON")
           else
             has_spec ← lift (contains "spec" data);
             if negb has_spec then Ret (bad_request "Missing 'spec' field")
             else
               has_candidates ← lift (contains "candidates" data);
               if negb has_candidates then
                 Ret (bad_request "Missing 'candidates' field")
               else
                 spec ← lift (getitem data "spec");
                 candidates ← lift (getitem data "candidates");
                 if negb (isinstance_str spec) then
                   Ret (bad_request "'spec' must be a string")
                 else
                   match candidates with
                   | PList cs =>
                       if (length cs =? 0)%nat then
                         Ret (bad_request "'candidates' list cannot be empty")
                       else if negb (forallb isinstance_str cs) then
                         Ret (bad_request
                                "All items in 'candidates' must be strings")
                       else
                         distances ← distances_of model spec cs;
                         let distances_list := PList (map PFloat distances) in
                         Ret (jsonify {[ "distances" := distances_list ]},
                              200%Z)
                   | _ => Ret (bad_request "'candidates' must be a list")
                   end
       end)
    (fun e =>
       Ret (jsonify {[ "error" :=
                         PStr ("Internal server error: " ++ exn_str e) ]},
            500%Z)).

(** main.py, lines 122-125 *)
Definition health : prog response :=
  Ret (jsonify {[ "status" := PStr "healthy";
                  "model" := PStr "all-MiniLM-L6-v2" ]}, 200%Z).

(** ** The process: module globals and routing *)

(** The one module global that is not a constant. *)
Record Service : Type := { model : Model }.

(** The two routes registered with [@app.route]. *)
Inductive http_request : Type :=
  | POST_calculate_distances (request : Request)
  | GET_health.

(** Neither view assigns a module global: the globals a request leaves
    behind are the ones it found. *)
Definition dispatch (g : Service) (h : http_request)
  : prog (response * Service) :=
  match h with
  | POST_calculate_distances request =>
      r ← calculate_distances (model g) request; Ret (r, g)
  | GET_health => r ← health; Ret (r, g)
  end.

Fixpoint serve (g : Service) (hs : list http_request)
  : prog (list response * Service) :=
  match hs with
  | [] => Ret ([], g)
  | h :: hs' =>
      '(r, g') ← dispatch g h;
      '(rs, g'') ← serve g' hs';
      Ret (r :: rs, g'')
  end.

(** ** Model files *)

Definition MODEL_NAME : string := "all-MiniLM-L6-v2".

Section Paths.

(** [os.path.join], [os.path.dirname] and the path of the running script. *)
Variable os_path_join : string -> string -> string.
Variable os_path_dirname : string -> string.
Variable __file__ : string.

Definition MODEL_DIR : string :=
  os_path_join (os_path_join (os_path_dirname __file__) "models") MODEL_NAME.

Definition MODEL_HUGGINGFACE : string := "sentence-transformers/" ++ MODEL_NAME.

Definition config_path : string := os_path_join MODEL_DIR "config.json".

Definition print (s : string) : prog unit := call (Print s).

(** main.py, lines 18-40; the value returned is the global [model]. *)
Definition load_model : prog Model :=
  print ("Loading model " ++ MODEL_NAME ++ "...");;
  try_except
    (dir_exists ← call (PathExists MODEL_DIR);
     both ← (if dir_exists : bool then call (PathExists config_path)
             else Ret false);
     if both : bool then
       print ("Loading model from local path: " ++ MODEL_DIR);;
       model ← call (SentenceTransformer MODEL_DIR);
       print "Model loaded from local successfully!";;
       Ret model
     else
       print ("Model not found locally at: " ++ MODEL_DIR);;
       print "Please run 'python download_model.py' first to download the model.";;
       print ("Or downloading from HuggingFace now: " ++ MODEL_HUGGINGFACE);;
       model ← call (SentenceTransformer MODEL_HUGGINGFACE);
       call (Makedirs (os_path_dirname MODEL_DIR) true);;
       print ("Saving model to local path: " ++ MODEL_DIR);;
       call (Save model MODEL_DIR);;
       print "Model downloaded and saved successfully!";;
       Ret model)
    (fun e =>
       print ("Error loading model: " ++ exn_str e);;
       Raise e).

(** Importing main.py: the views exist once the model is loaded. *)
Definition startup : prog Service :=
  model ← load_model; Ret {| model := model |}.

(** [str.lower], on the ASCII letters *)
Definition lower_ascii (c : ascii) : ascii :=
  let n := nat_of_ascii c in
  if (65 <=? n)%nat && (n <=? 90)%nat then ascii_of_nat (n + 32) else c.

Fixpoint lower (s : string) : string :=
  match s with
  | EmptyString => EmptyString
  | String c s' => String (lower_ascii c) (lower s')
  end.

(** download_model.py, lines 27-36 *)
Definition fetch_and_save : prog pyobj :=
  print "Loading model from HuggingFace...";;
  model ← call (SentenceTransformer MODEL_HUGGINGFACE);
  print ("Saving model to: " ++ MODEL_DIR);;
  call (Save model MODEL_DIR);;
  print "Model downloaded and saved successfully!";;
  print ("Model location: " ++ MODEL_DIR);;
  Ret PNone.

(** download_model.py, lines 11-36; the bare [return] and the end of the
    body both give [None]. *)
Definition download_model : prog pyobj :=
  print ("Downloading model: " ++ MODEL_HUGGINGFACE);;
  print ("Target directory: " ++ MODEL_DIR);;
  call (Makedirs (os_path_dirname MODEL_DIR) true);;
  dir_exists ← call (PathExists MODEL_DIR);
  if dir_exists : bool then
    print ("Model already exists at: " ++ MODEL_DIR);;
    response ← call (Input "Do you want to re-download? (y/n): ");
    if negb (String.eqb (lower response) "y") then
      print "Skipping download.";;
      Ret PNone
    else fetch_and_save
  else fetch_and_save.

End Paths.

End Service.

Arguments Event : clear implicits.
Arguments pyobj : clear implicits.
Arguments oracle : clear implicits.

(** ** A small concrete world

    Scalars are integers, a model is known by the name it was loaded from,
    an embedding is [length; 1] and the similarity kernel is the dot
    product.  The world is used to run the programs on concrete inputs. *)

Definition example_embed (v : pyobj Z) : list Z :=
  match v with
  | PStr s => [Z.of_nat (String.length s); 1%Z]
  | _ => [0%Z; 0%Z]
  end.

Fixpoint example_dot (x y : list Z) : Z :=
  match x, y with
  | a :: x', b :: y' => (a * b + example_dot x' y')%Z
  | _, _ => 0%Z
  end.

Definition pairwise {F : Type} (kernel : list F -> list F -> F)
    (X Y : list (list F)) : list (list F) :=
  map (fun x => map (kernel x) Y) X.

Record world : Type := {
  files : list string;          (* the paths [os.path.exists] reports *)
  operator : string;            (* what the operator types at the prompt *)
  hub_error : option exn;       (* raised by [SentenceTransformer(...)] *)
  sklearn_error : option exn    (* raised by [cosine_similarity] *)
}.

Definition example_env (w : world) : oracle Z string :=
  fun _ X ev =>
    match ev in Event _ _ X return outcome X with
    | Print _ => Return tt
    | Input _ => Return (operator w)
    | PathExists p => Return (existsb (String.eqb p) (files w))
    | Makedirs _ _ => Return tt
    | SentenceTransformer name =>
        match hub_error w with
        | Some e => Raised e
        | None => Return name
        end
    | Save _ _ => Return tt
    | Encode _ sentences => Return (map example_embed sentences)
    | CosineSimilarity X Y =>
        match sklearn_error w with
        | Some e => Raised e
        | None => Return (pairwise example_dot X Y)
        end
    end.

Definition example_join (a b : string) : string := a ++ "/" ++ b.

(** The part of [p] before its last slash, if it has one. *)
Fixpoint before_last_slash (p : string) : option string :=
  match p with
  | EmptyString => None
  | String c p' =>
      match before_last_slash p' with
      | Some h => Some (String c h)
      | None => if Ascii.eqb c "/" then Some EmptyString else None
      end
  end.

Definition example_dirname (p : string) : string :=
  match before_last_slash p with
  | Some h => h
  | None => EmptyString
  end.

Definition example_request (spec : string) (candidates : list string)
  : @Request Z :=
  {| is_json := true;
     get_json :=
       Return (PDict {[ "spec" := PStr spec;
                        "candidates" := PList (map PStr candidates) ]}) |}.

Definition quiet : world :=
  {| files := []; operator := "n"; hub_error := None; sklearn_error := None |}.

(** Scenarios. *)

Definition unreadable : @Request Z :=
  {| is_json := true;
     get_json :=
       Raised (Exn BadRequest
                 "400 Bad Request: Failed to decode JSON object") |}.

Definition greeting : @Request Z :=
  example_request "hello world" ["hello world"; "completely unrelated text"].

Definition nan_world : world :=
  {| files := []; operator := "n"; hub_error := None;
     sklearn_error := Some (Exn ValueError "Input contains NaN.") |}.

Definition cache : list string :=
  ["/srv/models/all-MiniLM-L6-v2";
   "/srv/models/all-MiniLM-L6-v2/config.json"].

Definition cached (answer : string) : world :=
  {| files := cache; operator := answer; hub_error := None;
     sklearn_error := None |}.

Definition offline : world :=
  {| files := []; operator := "n";
     hub_error := Some (Exn OSError "We couldn't connect to 'https://huggingface.co'");
     sklearn_error := None |}.

Definition corrupt_cache : world :=
  {| files := cache; operator := "n";
     hub_error := Some (Exn OSError "Unable to load weights from checkpoint");
     sklearn_error := None |}.

Definition no_spec : @Request Z :=
  {| is_json := true;
     get_json := Return (PDict {[ "candidates" := PList [PStr "a"] ]}) |}.

(** ** Worlds over other scalars

    The same libraries over any scalars, given the embedding of a sentence
    and the similarity of two rows. *)












Definition blank_candidate : @Request Z :=
  example_request "abc" [EmptyString; "a"].

(** ** The validation order as the specification words it

    Nine checks, the first failing one decides.  A field is present when the
    parsed body is an object that has the key. *)

Inductive check : Type :=
  | content_type_is_json
  | body_parses
  | body_not_null
  | spec_present
  | candidates_present
  | spec_is_string
  | candidates_is_list
  | candidates_not_empty
  | candidates_all_strings.

Definition field {F : Type} (data : pyobj F) (key : string)
  : option (pyobj F) :=
  match data with
  | PDict d => d !! key
  | _ => None
  end.

Definition first_failing_check {F : Type} (request : @Request F)
  : option check :=
  if negb (is_json request) then Some content_type_is_json
  else
    match get_json request with
    | Raised _ => Some body_parses
    | Return PNone => Some body_not_null
    | Return data =>
        match field data "spec", field data "candidates" with
        | None, _ => Some spec_present
        | Some _, None => Some candidates_present
        | Some (PStr _), Some (PList []) => Some candidates_not_empty
        | Some (PStr _), Some (PList cs) =>
            if forallb isinstance_str cs then None
            else Some candidates_all_strings
        | Some (PStr _), Some _ => Some candidates_is_list
        | Some _, Some _ => Some spec_is_string
        end
    end.

(** The 400 answer of each check, with the messages of main.py. *)
Definition rejection {F : Type} (request : @Request F) (c : check)
  : @response F :=
  match c with
  | content_type_is_json => bad_request "Content-Type must be application/json"
  | body_parses =>
      match get_json request with
      | Raised e =>
          (jsonify {[ "error" := PStr (if is_BadRequest e
                                       then "Invalid JSON format"
                                       else "Failed to parse JSON");
                      "details" := PStr (exn_str e) ]}, 400%Z)
      | Return _ => bad_request "Invalid JSON format"
      end
  | body_not_null => bad_request "Request body is empty or invalid JSON"
  | spec_present => bad_request "Missing 'spec' field"
  | candidates_present => bad_request "Missing 'candidates' field"
  | spec_is_string => bad_request "'spec' must be a string"
  | candidates_is_list => bad_request "'candidates' must be a list"
  | candidates_not_empty => bad_request "'candidates' list cannot be empty"
  | candidates_all_strings =>
      bad_request "All items in 'candidates' must be strings"
  end.

(** The parsed body is a JSON object, [null], or the parse failed. *)
Definition object_or_null {F : Type} (request : @Request F) : bool :=
  match get_json request with
  | Raised _ => true
  | Return PNone => true
  | Return (PDict _) => true
  | Return _ => false
  end.

(** A request the nine checks let through, with its two fields. *)
Definition valid_request {F : Type} (request : @Request F)
    (spec : pyobj F) (candidates : list (pyobj F)) : Prop :=
  is_json request = true /\
  exists d : gmap string (pyobj F),
    get_json request = Return (PDict d) /\
    d !! "spec" = Some spec /\
    d !! "candidates" = Some (PList candidates) /\
    isinstance_str spec = true /\
    candidates <> [] /\
    forallb isinstance_str candidates = true.

(** The body of a response, as the dict handed to [jsonify]. *)
Definition body_key {F : Type} (r : @response F) (key : string)
  : option (pyobj F) :=
  field (fst r) key.

Definition status {F : Type} (r : @response F) : Z := snd r.

(** The two answers past validation. *)
Definition ok_response {F : Type} (distances : list F) : @response F :=
  (jsonify {[ "distances" := PList (map PFloat distances) ]}, 200%Z).

Definition internal_error {F : Type} (e : exn) : @response F :=
  (jsonify {[ "error" := PStr ("Internal server error: " ++ exn_str e) ]},
   500%Z).

(** ** Reading a trace *)

Section Observers.

Context {F Model : Type}.

(** A call on the model files: a load by name or path, a directory
    creation, or a save. *)
Inductive storage_op : Type :=
  | Load (name_or_path : string) (r : outcome Model)
  | Mkdir (path : string) (exist_ok : bool) (r : outcome unit)
  | Persist (m : Model) (path : string) (r : outcome unit).

Definition storage_op_of (c : @call_record F Model) : list storage_op :=
  match c with
  | Called ev r =>
      match ev in Event _ _ X return outcome X -> list storage_op with
      | SentenceTransformer name => fun r => [Load name r]
      | Makedirs path exist_ok => fun r => [Mkdir path exist_ok r]
      | Save m path => fun r => [Persist m path r]
      | _ => fun _ => []
      end r
  end.

Definition storage_ops (calls : @trace F Model) : list storage_op :=
  flat_map storage_op_of calls.

(** What [os.path.exists] answered, in order. *)
Definition path_answers (calls : @trace F Model) : list (outcome bool) :=
  flat_map (fun c =>
    match c with
    | Called ev r =>
        match ev in Event _ _ X return outcome X -> list (outcome bool) with
        | PathExists _ => fun r => [r]
        | _ => fun _ => []
        end r
    end) calls.

(** What the operator typed, in order. *)
Definition inputs (calls : @trace F Model) : list (outcome string) :=
  flat_map (fun c =>
    match c with
    | Called ev r =>
        match ev in Event _ _ X return outcome X -> list (outcome string) with
        | Input _ => fun r => [r]
        | _ => fun _ => []
        end r
    end) calls.

(** The lines printed, in order. *)
Definition printed (calls : @trace F Model) : list string :=
  flat_map (fun c =>
    match c with
    | Called ev _ =>
        match ev with
        | Print s => [s]
        | _ => []
        end
    end) calls.

(** The exceptions the calls raised, in order. *)
Definition raised (calls : @trace F Model) : list exn :=
  flat_map (fun c =>
    match c with
    | Called _ (Raised e) => [e]
    | Called _ (Return _) => []
    end) calls.

(** [print] does not fail. *)
Definition prints_return (env : oracle F Model) : Prop :=
  forall (t : @trace F Model) (s : string), env t unit (Print s) = Return tt.

(** *** The world as the scripts find it

    Facts about the world hold whenever the question is asked: a path
    exists or not, the operator types one answer, a name or path loads to
    one model. *)

(** [os.path.exists(p)] is [b]. *)
Definition path_exists_is (env : oracle F Model) (p : string) (b : bool)
  : Prop :=
  forall t : @trace F Model, env t bool (PathExists p) = Return b.

(** The operator types [answer] at any prompt. *)
Definition operator_types (env : oracle F Model) (answer : string) : Prop :=
  forall (t : @trace F Model) (prompt : string),
    env t string (Input prompt) = Return answer.

(** [os.makedirs] succeeds. *)
Definition makedirs_returns (env : oracle F Model) : Prop :=
  forall (t : @trace F Model) (p : string) (exist_ok : bool),
    env t unit (Makedirs p exist_ok) = Return tt.

(** [SentenceTransformer(name_or_path)] gives the model [m]. *)
Definition loads (env : oracle F Model) (name_or_path : string) (m : Model)
  : Prop :=
  forall t : @trace F Model,
    env t Model (SentenceTransformer name_or_path) = Return m.

(** [SentenceTransformer(name_or_path)] raises [e]. *)
Definition load_fails (env : oracle F Model) (name_or_path : string)
    (e : exn) : Prop :=
  forall t : @trace F Model,
    env t Model (SentenceTransformer name_or_path) = Raised e.

(** [model.save] succeeds. *)
Definition save_returns (env : oracle F Model) : Prop :=
  forall (t : @trace F Model) (m : Model) (path : string),
    env t unit (Save m path) = Return tt.

(** The three library calls of a request return [X], [Y] and [K]. *)
Definition library_returns (env : oracle F Model) (t : @trace F Model)
    (model : Model) (spec : pyobj F) (candidates : list (pyobj F))
    (X Y K : list (list F)) : Prop :=
  let c1 := Called (Encode model [spec]) (Return X) in
  let c2 := Called (Encode model candidates) (Return Y) in
  env t _ (Encode model [spec]) = Return X /\
  env (t ++ [c1]) _ (Encode model candidates) = Return Y /\
  env ((t ++ [c1]) ++ [c2]) _ (CosineSimilarity X Y) = Return K.

(** One of the three library calls of a request raises [e]. *)
Definition library_raises (env : oracle F Model) (t : @trace F Model)
    (model : Model) (spec : pyobj F) (candidates : list (pyobj F))
    (e : exn) : Prop :=
  env t _ (Encode model [spec]) = Raised e \/
  exists X : list (list F),
    let c1 := Called (Encode model [spec]) (Return X) in
    env t _ (Encode model [spec]) = Return X /\
    (env (t ++ [c1]) _ (Encode model candidates) = Raised e \/
     exists Y : list (list F),
       let c2 := Called (Encode model candidates) (Return Y) in
       env (t ++ [c1]) _ (Encode model candidates) = Return Y /\
       env ((t ++ [c1]) ++ [c2]) _ (CosineSimilarity X Y) = Raised e).

(** The paths [os.path.exists] was asked about, in order. *)
Definition paths_queried (calls : @trace F Model) : list string :=
  flat_map (fun c =>
    match c with
    | Called ev _ =>
        match ev with
        | PathExists p => [p]
        | _ => []
        end
    end) calls.

(** The prompts shown to the operator, in order. *)
Definition prompts (calls : @trace F Model) : list string :=
  flat_map (fun c =>
    match c with
    | Called ev _ =>
        match ev with
        | Input prompt => [prompt]
        | _ => []
        end
    end) calls.

(** The calls a valid request may make: [encode([spec])], then
    [encode(candidates)], then [cosine_similarity] on the two results, each
    once, stopping at the first that raises. *)
Definition request_calls (model : Model) (spec : pyobj F)
    (candidates : list (pyobj F)) (calls : @trace F Model) : Prop :=
  (exists e : exn, calls = [Called (Encode model [spec]) (Raised e)]) \/
  (exists (X : list (list F)) (e : exn),
     calls = [Called (Encode model [spec]) (Return X);
              Called (Encode model candidates) (Raised e)]) \/
  (exists (X Y : list (list F)) (r : outcome (list (list F))),
     calls = [Called (Encode model [spec]) (Return X);
              Called (Encode model candidates) (Return Y);
              Called (CosineSimilarity X Y) r]).

End Observers.

(** * Properties *)

Section Properties.

Context {F Model : Type}.
Variable fone : F.
Variable fsub : F -> F -> F.

Implicit Types (env : oracle F Model) (t : @trace F Model) (model : Model).
Implicit Types (request : @Request F) (e : exn).

(** ** Running composite programs *)

Lemma run_lift {A : Type} env (o : outcome A) t :
  run env (lift o) t = (o, []).
Proof. destruct o; reflexivity. Qed.

Lemma run_call {X : Type} env (ev : Event F Model X) t :
  run env (call ev) t = (env t X ev, [Called ev (env t X ev)]).
Proof. unfold call. simpl. rewrite run_lift. reflexivity. Qed.

Lemma run_bind {A B : Type} env (p : prog A) (f : A -> prog B) t :
  run env (bind p f) t =
    match run env p t with
    | (Return a, calls) =>
        let '(o, calls') := run env (f a) (t ++ calls) in (o, calls ++ calls')
    | (Raised e, calls) => (Raised e, calls)
    end.
Proof.
  revert t. induction p as [a | e | X ev k IH]; intros t; simpl.
  - rewrite app_nil_r. destruct (run env (f a) t); reflexivity.
  - reflexivity.
  - rewrite IH. destruct (run env (k _) _) as [[a | e] calls]; simpl.
    + rewrite <- app_assoc. simpl.
      destruct (run env (f a) _); reflexivity.
    + reflexivity.
Qed.

Lemma run_try_except {A : Type} env (p : prog A) (h : exn -> prog A) t :
  run env (try_except p h) t =
    match run env p t with
    | (Return a, calls) => (Return a, calls)
    | (Raised e, calls) =>
        let '(o, calls') := run env (h e) (t ++ calls) in (o, calls ++ calls')
    end.
Proof.
  revert t. induction p as [a | e | X ev k IH]; intros t; simpl.
  - reflexivity.
  - rewrite app_nil_r. destruct (run env (h e) t); reflexivity.
  - rewrite IH. destruct (run env (k _) _) as [[a | e] calls]; simpl.
    + reflexivity.
    + rewrite <- app_assoc. simpl.
      destruct (run env (h e) _); reflexivity.
Qed.

(** ** The validation checks of [calculate_distances] *)

(** C5.  A request with a JSON content type whose body does not parse is
    answered 400 (never 500), with the parser's message under [details];
    no library call is made. *)
Theorem malformed_json_is_400 env t model request e :
  is_json request = true ->
  get_json request = Raised e ->
  run env (calculate_distances fone fsub model request) t =
    (Return (jsonify {[ "error" := PStr (if is_BadRequest e
                                         then "Invalid JSON format"
                                         else "Failed to parse JSON");
                        "details" := PStr (exn_str e) ]}, 400%Z), []).
Proof.
  intros Hjson Hparse. unfold calculate_distances.
  rewrite Hjson, Hparse. simpl.
  destruct (is_BadRequest e); reflexivity.
Qed.

(** X11.  On a body that is a JSON object, [null] or unparseable, the nine
    checks run in the specified order: the first failing one answers 400 with its
    own message, and no library call is made. *)
Theorem validation_order env t model request c :
  object_or_null request = true ->
  first_failing_check request = Some c ->
  run env (calculate_distances fone fsub model request) t =
    (Return (rejection request c), []).
Proof.
  destruct request as [j [data | e]];
    unfold object_or_null, first_failing_check, calculate_distances,
      rejection; simpl.
  - destruct j; simpl; [| intros _ [= <-]; reflexivity].
    destruct data as [| | | | | | d]; try discriminate; intros _.
    + intros [= <-]. reflexivity.
    + simpl. destruct (d !! "spec") as [spec |] eqn:Hs; simpl;
        [| intros [= <-]; reflexivity].
      destruct (d !! "candidates") as [cands |] eqn:Hc; simpl;
        [| destruct spec; intros [= <-]; reflexivity].
      destruct spec; simpl; try (intros [= <-]; reflexivity).
      destruct cands as [| | | | | cs |]; simpl;
        try (intros [= <-]; reflexivity).
      destruct cs as [| c0 cs]; simpl; [intros [= <-]; reflexivity |].
      destruct (isinstance_str c0 && forallb isinstance_str cs); simpl;
        [discriminate | intros [= <-]; reflexivity].
  - destruct j; simpl; intros _ [= <-]; [| reflexivity].
    destruct (is_BadRequest e); reflexivity.
Qed.

(** C4.  A body that parses to a JSON number has no [spec] field, so the
    fourth check fails; the handler answers 500, not 400: the membership
    test raises [TypeError], which the outer handler catches. *)
Theorem number_body_is_500 env t model n :
  let request := {| is_json := true; get_json := Return (PInt n) |} in
  first_failing_check request = Some spec_present /\
  run env (calculate_distances fone fsub model request) t =
    (Return (jsonify {[ "error" :=
               PStr "Internal server error: argument of type 'int' is not iterable" ]},
             500%Z), []).
Proof. split; reflexivity. Qed.

(** A list that holds both keys passes the two membership tests; the
    subscript [data['spec']] then raises, and the answer is 500 again. *)
Lemma key_list_body_is_500 env t model :
  let request :=
    {| is_json := true;
       get_json := Return (PList [PStr "spec"; PStr "candidates"]) |} in
  run env (calculate_distances fone fsub model request) t =
    (Return (internal_error
               (Exn TypeError
                  "list indices must be integers or slices, not str")), []).
Proof. reflexivity. Qed.

(** So does a string that contains both keys. *)
Lemma key_string_body_is_500 env t model :
  let request :=
    {| is_json := true;
       get_json := Return (PStr "spec and candidates") |} in
  run env (calculate_distances fone fsub model request) t =
    (Return (internal_error
               (Exn TypeError "string indices must be integers")), []).
Proof. reflexivity. Qed.

Example missing_spec_is_400 env t model :
  let request :=
    {| is_json := true;
       get_json := Return (PDict {[ "candidates" := PList [PStr "a"] ]}) |} in
  run env (calculate_distances fone fsub model request) t =
    (Return (bad_request "Missing 'spec' field"), []) /\
  body_key (@bad_request F "Missing 'spec' field") "distances" = None.
Proof. split; reflexivity. Qed.

Example empty_candidates_is_400 env t model :
  let request :=
    {| is_json := true;
       get_json := Return (PDict {[ "spec" := PStr "a";
                                    "candidates" := PList [] ]}) |} in
  run env (calculate_distances fone fsub model request) t =
    (Return (bad_request "'candidates' list cannot be empty"), []).
Proof. reflexivity. Qed.

Example number_candidate_is_400 env t model :
  let request :=
    {| is_json := true;
       get_json :=
         Return (PDict {[ "spec" := PStr "a";
                          "candidates" := PList [PStr "b"; PInt 3] ]}) |} in
  run env (calculate_distances fone fsub model request) t =
    (Return (bad_request "All items in 'candidates' must be strings"), []).
Proof. reflexivity. Qed.

(** With an empty object the missing [spec] is reported, not the missing
    [candidates]: the fourth check comes before the fifth. *)
Example empty_object_is_400 env t model :
  let request := {| is_json := true; get_json := Return (PDict ∅) |} in
  run env (calculate_distances fone fsub model request) t =
    (Return (bad_request "Missing 'spec' field"), []).
Proof. reflexivity. Qed.

(** ** Valid requests *)

#[local] Arguments distances_of : simpl never.

Lemma calculate_distances_valid env t model request spec cs :
  valid_request request spec cs ->
  run env (calculate_distances fone fsub model request) t =
    match run env (distances_of fone fsub model spec cs) t with
    | (Return ds, calls) => (Return (ok_response ds), calls)
    | (Raised e, calls) => (Return (internal_error e), calls)
    end.
Proof.
  intros (Hjson & d & Hparse & Hs & Hc & Hstr & Hne & Hall).
  unfold calculate_distances. rewrite Hjson, Hparse. cbn.
  rewrite Hs, Hc. cbn. rewrite Hstr. cbn.
  destruct cs as [| c0 cs]; [congruence |].
  change (length (c0 :: cs) =? 0)%nat with false. cbv iota.
  rewrite Hall. cbv iota. cbn [negb]. cbv iota.
  rewrite run_try_except. unfold mbind, prog_bind. rewrite run_bind.
  destruct (run env (distances_of _ _ _ _ _) t) as [[ds | e] calls]; cbn;
    rewrite app_nil_r; reflexivity.
Qed.

(** When the three library calls return, so does the computation: the
    distances are [1 - s] for the similarities [s] of the first row. *)
Lemma run_distances_of env t model spec cs X Y r K :
  library_returns env t model spec cs X Y (r :: K) ->
  run env (distances_of fone fsub model spec cs) t =
    (Return (map (fsub fone) r),
     [Called (Encode model [spec]) (Return X);
      Called (Encode model cs) (Return Y);
      Called (CosineSimilarity X Y) (Return (r :: K))]).
Proof.
  intros (H1 & H2 & H3). unfold distances_of. cbn.
  rewrite H1. cbn. rewrite H2. cbn. rewrite H3. reflexivity.
Qed.

Lemma pairwise_row0 (kernel : list F -> list F -> F) (u : list F)
    (X Y : list (list F)) :
  pairwise kernel (u :: X) Y = map (kernel u) Y :: pairwise kernel X Y.
Proof. reflexivity. Qed.

(** C1.  On a valid request whose library calls return (one embedding row
    per sentence, similarities pairwise), the answer is 200 and its
    [distances] list has one entry per candidate, in the candidates' order:
    entry [i] is the distance computed for [candidates[i]]. *)
Theorem distances_one_per_candidate env t model request spec cs
    (embed : pyobj F -> list F) (kernel : list F -> list F -> F) :
  valid_request request spec cs ->
  library_returns env t model spec cs
    [embed spec] (map embed cs)
    (pairwise kernel [embed spec] (map embed cs)) ->
  exists (ds : list F) (calls : trace),
    run env (calculate_distances fone fsub model request) t =
      (Return (ok_response ds), calls) /\
    body_key (ok_response ds) "distances" = Some (PList (map PFloat ds)) /\
    length ds = length cs /\
    forall (i : nat) (c : pyobj F),
      cs !! i = Some c ->
      ds !! i = Some (fsub fone (kernel (embed spec) (embed c))).
Proof.
  intros Hvalid Hlib.
  exists (map (fun c => fsub fone (kernel (embed spec) (embed c))) cs).
  eexists. split; [| split; [| split]].
  - rewrite (calculate_distances_valid _ _ _ _ _ _ Hvalid).
    rewrite pairwise_row0 in Hlib.
    rewrite (run_distances_of _ _ _ _ _ _ _ _ _ Hlib).
    rewrite !map_map. reflexivity.
  - reflexivity.
  - apply length_map.
  - intros i c Hi. rewrite list_lookup_fmap, Hi. reflexivity.
Qed.

(** C2.  On a valid request whose library calls return, entry [i] of
    [distances] is [1 - s], where [s] is the cosine similarity between the
    row [encode] produced for the spec and the row it produced for
    [candidates[i]]. *)
Theorem distance_is_one_minus_similarity env t model request spec cs
    (kernel : list F -> list F -> F) (u : list F) (X Y : list (list F)) :
  valid_request request spec cs ->
  library_returns env t model spec cs (u :: X) Y
    (pairwise kernel (u :: X) Y) ->
  length Y = length cs ->
  exists (ds : list F) (calls : trace),
    run env (calculate_distances fone fsub model request) t =
      (Return (ok_response ds), calls) /\
    forall (i : nat) (c : pyobj F),
      cs !! i = Some c ->
      exists v : list F,
        Y !! i = Some v /\ ds !! i = Some (fsub fone (kernel u v)).
Proof.
  intros Hvalid Hlib Hlen.
  exists (map (fun v => fsub fone (kernel u v)) Y). eexists. split.
  - rewrite (calculate_distances_valid _ _ _ _ _ _ Hvalid).
    rewrite pairwise_row0 in Hlib.
    rewrite (run_distances_of _ _ _ _ _ _ _ _ _ Hlib).
    rewrite map_map. reflexivity.
  - intros i c Hi.
    destruct (Y !! i) as [v |] eqn:Hv.
    + exists v. split; [reflexivity |].
      rewrite list_lookup_fmap, Hv. reflexivity.
    + apply lookup_ge_None in Hv. apply lookup_lt_Some in Hi. lia.
Qed.

(** C10.  Validation never looks inside a string: a request whose spec is
    empty, or whose candidates include empty strings, passes the nine
    checks and reaches the encoder; when the library calls return the
    similarities [r], one per candidate, the answer is 200 and carries
    [1 - s] for each [s] of [r], in order: one distance per candidate. *)
Theorem empty_strings_reach_encoding env t model request
    (d : gmap string (pyobj F)) (s : string) (ss : list string) :
  is_json request = true ->
  get_json request = Return (PDict d) ->
  d !! "spec" = Some (PStr s) ->
  d !! "candidates" = Some (PList (map PStr ss)) ->
  ss <> [] ->
  s = EmptyString \/ In EmptyString ss ->
  first_failing_check request = None /\
  (exists (o : outcome response) (calls : trace),
     run env (calculate_distances fone fsub model request) t =
       (o, Called (Encode model [PStr s])
             (env t _ (Encode model [PStr s])) :: calls)) /\
  forall (X Y : list (list F)) (r : list F) (K : list (list F)),
    library_returns env t model (PStr s) (map PStr ss) X Y (r :: K) ->
    length r = length ss ->
    run env (calculate_distances fone fsub model request) t =
      (Return (ok_response (map (fsub fone) r)),
       [Called (Encode model [PStr s]) (Return X);
        Called (Encode model (map PStr ss)) (Return Y);
        Called (CosineSimilarity X Y) (Return (r :: K))]) /\
    status (ok_response (map (fsub fone) r)) = 200%Z /\
    length (map (fsub fone) r) = length ss.
Proof.
  intros Hjson Hparse Hs Hc Hne _.
  assert (Hall : forallb isinstance_str (map (@PStr F) ss) = true).
  { clear. induction ss as [| a l IH]; [reflexivity | exact IH]. }
  assert (Hvalid : valid_request request (PStr s) (map PStr ss)).
  { split; [exact Hjson |]. exists d. repeat split; try assumption.
    destruct ss; [congruence | discriminate]. }
  split; [| split].
  - unfold first_failing_check. rewrite Hjson, Hparse. cbn.
    rewrite Hs, Hc. destruct ss as [| a l]; [congruence |].
    cbn [map] in Hall |- *. rewrite Hall. reflexivity.
  - rewrite (calculate_distances_valid _ _ _ _ _ _ Hvalid).
    unfold distances_of. cbn.
    destruct (run env _ _) as [[ds | e] calls]; eauto.
  - intros X Y r K Hlib Hlen.
    rewrite (calculate_distances_valid _ _ _ _ _ _ Hvalid).
    rewrite (run_distances_of _ _ _ _ _ _ _ _ _ Hlib).
    repeat split. rewrite length_map. exact Hlen.
Qed.

(** ** Failures past validation *)

Lemma library_raises_run env t model spec cs e :
  library_raises env t model spec cs e ->
  exists calls : trace,
    run env (distances_of fone fsub model spec cs) t = (Raised e, calls).
Proof.
  unfold distances_of.
  intros [H1 | (X & H1 & [H2 | (Y & H2 & H3)])]; cbn; rewrite H1; cbn.
  - eauto.
  - rewrite H2. cbn. eauto.
  - rewrite H2. cbn. rewrite H3. cbn. eauto.
Qed.

(** The view catches everything: it always returns a response. *)
Lemma calculate_distances_returns env t model request :
  exists (r : response) (calls : trace),
    run env (calculate_distances fone fsub model request) t =
      (Return r, calls).
Proof.
  unfold calculate_distances. rewrite run_try_except.
  destruct (run env _ t) as [[r | e] calls]; cbn; eauto.
Qed.

Lemma run_dispatch_post env t (g : @Service Model) request :
  run env (dispatch fone fsub g (POST_calculate_distances request)) t =
    match run env (calculate_distances fone fsub (model g) request) t with
    | (Return r, calls) => (Return (r, g), calls)
    | (Raised e, calls) => (Raised e, calls)
    end.
Proof.
  unfold dispatch, mbind, prog_bind. rewrite run_bind.
  destruct (run env _ t) as [[r | e] calls]; cbn;
    rewrite ?app_nil_r; reflexivity.
Qed.

(** Every request is answered, and the globals stay as they were. *)
Lemma dispatch_returns env t (g : @Service Model) (h : http_request) :
  exists (r : response) (calls : trace),
    run env (dispatch fone fsub g h) t = (Return (r, g), calls).
Proof.
  destruct h as [request |].
  - rewrite run_dispatch_post.
    destruct (calculate_distances_returns env t (model g) request)
      as (r & calls & ->). eauto.
  - cbn. eauto.
Qed.

Lemma run_serve_cons env t (g : @Service Model) (h : http_request)
    (hs : list http_request) (r : response) (calls : trace) :
  run env (dispatch fone fsub g h) t = (Return (r, g), calls) ->
  run env (serve fone fsub g (h :: hs)) t =
    match run env (serve fone fsub g hs) (t ++ calls) with
    | (Return (rs, g'), calls') => (Return (r :: rs, g'), calls ++ calls')
    | (Raised e, calls') => (Raised e, calls ++ calls')
    end.
Proof.
  intros Hd. cbn [serve]. unfold mbind, prog_bind.
  rewrite run_bind, Hd. rewrite run_bind.
  destruct (run env (serve _ _ g hs) _) as [[[rs g'] | e] calls']; cbn;
    rewrite ?app_nil_r; reflexivity.
Qed.

Lemma serve_returns env (g : @Service Model) (hs : list http_request) t :
  exists (rs : list response) (calls : trace),
    run env (serve fone fsub g hs) t = (Return (rs, g), calls).
Proof.
  revert t. induction hs as [| h hs IH]; intros t.
  - cbn. eauto.
  - destruct (dispatch_returns env t g h) as (r & calls & Hd).
    rewrite (run_serve_cons _ _ _ _ _ _ _ Hd).
    destruct (IH (t ++ calls)) as (rs & calls' & ->). eauto.
Qed.

(** C6.  On a valid request, when a library call raises [e] the answer is
    500 with body [{error: Internal server error: <str(e)>}] and no
    [distances] key; the globals are unchanged and the requests that
    follow are served. *)
Theorem library_exception_is_500 env t (g : @Service Model) request spec cs e
    (later : list http_request) :
  valid_request request spec cs ->
  library_raises env t (model g) spec cs e ->
  exists calls : trace,
    run env (dispatch fone fsub g (POST_calculate_distances request)) t =
      (Return (internal_error e, g), calls) /\
    status (@internal_error F e) = 500%Z /\
    body_key (@internal_error F e) "error" =
      Some (PStr ("Internal server error: " ++ exn_str e)) /\
    body_key (@internal_error F e) "distances" = None /\
    exists (rs : list response) (calls' : trace),
      run env (serve fone fsub g later) (t ++ calls) =
        (Return (rs, g), calls') /\
      run env (serve fone fsub g (POST_calculate_distances request :: later)) t =
        (Return (internal_error e :: rs, g), calls ++ calls').
Proof.
  intros Hvalid Hraise.
  destruct (library_raises_run _ _ _ _ _ _ Hraise) as (calls & Hrun).
  assert (Hd : run env
             (dispatch fone fsub g (POST_calculate_distances request)) t =
           (Return (internal_error e, g), calls)).
  { rewrite run_dispatch_post,
      (calculate_distances_valid _ _ _ _ _ _ Hvalid), Hrun. reflexivity. }
  exists calls. split; [exact Hd |].
  split; [reflexivity |]. split; [reflexivity |]. split; [reflexivity |].
  destruct (serve_returns env g later (t ++ calls)) as (rs & calls' & Hs).
  exists rs, calls'. split; [exact Hs |].
  rewrite (run_serve_cons _ _ _ _ _ _ _ Hd), Hs. reflexivity.
Qed.

(** ** The health view *)

(** C7.  After any sequence of requests, [GET /health] is answered 200 with
    [{status: healthy, model: all-MiniLM-L6-v2}]; it makes no call and
    leaves the globals as they were. *)
Theorem health_always_healthy env t (g : @Service Model)
    (history : list http_request) :
  exists (rs : list response) (calls : trace),
    run env (serve fone fsub g history) t = (Return (rs, g), calls) /\
    run env (dispatch fone fsub g GET_health) (t ++ calls) =
      (Return ((jsonify {[ "status" := PStr "healthy";
                           "model" := PStr MODEL_NAME ]}, 200%Z), g), []) /\
    run env (serve fone fsub g (history ++ [GET_health])) t =
      (Return (rs ++ [(jsonify {[ "status" := PStr "healthy";
                                  "model" := PStr MODEL_NAME ]}, 200%Z)], g),
       calls).
Proof.
  revert t. induction history as [| h hs IH]; intros t.
  - exists [], []. repeat split.
  - destruct (dispatch_returns env t g h) as (r & calls & Hd).
    destruct (IH (t ++ calls)) as (rs & calls' & Hs & _ & Hall).
    exists (r :: rs), (calls ++ calls'). split; [| split].
    + rewrite (run_serve_cons _ _ _ _ _ _ _ Hd), Hs. reflexivity.
    + reflexivity.
    + change ((h :: hs) ++ [GET_health]) with (h :: (hs ++ [GET_health])).
      rewrite (run_serve_cons _ _ _ _ _ _ _ Hd), Hall. reflexivity.
Qed.

(** ** What every request gets *)

(** A request is either turned away before any call is made, with an
    answer that depends on the request alone, or it is valid.  The answer
    is 500 only when the parsed body is neither an object nor [null]. *)
Ltac turned_away :=
  left; eexists; split;
  [ intros; unfold calculate_distances; cbn;
    repeat match goal with
      | H : _ = _ |- _ => rewrite H; cbn
      end;
    reflexivity
  | split;
    [ first [ left; reflexivity | right; repeat split; reflexivity ]
    | split; [reflexivity | eexists; reflexivity] ] ].

Lemma calculate_distances_cases request :
  (exists r : @response F,
     (forall env t model,
        run env (calculate_distances fone fsub model request) t =
          (Return r, [])) /\
     (status r = 400%Z \/
      (status r = 500%Z /\
       is_json request = true /\ object_or_null request = false)) /\
     body_key r "distances" = None /\
     exists msg : string, body_key r "error" = Some (PStr msg)) \/
  (exists (spec : pyobj F) (cs : list (pyobj F)),
     valid_request request spec cs).
Proof.
  destruct request as [j [data | e]]; destruct j; try turned_away.
  - destruct data as [| b | n | x | s | l | d]; try turned_away.
    + destruct (index 0 "spec" s) eqn:Hs; [| turned_away].
      destruct (index 0 "candidates" s) eqn:Hc; turned_away.
    + destruct (existsb (eq_str "spec") l) eqn:Hs; [| turned_away].
      destruct (existsb (eq_str "candidates") l) eqn:Hc; turned_away.
    + destruct (d !! "spec") as [spec |] eqn:Hs; [| turned_away].
      destruct (d !! "candidates") as [cands |] eqn:Hc; [| turned_away].
      destruct (isinstance_str spec) eqn:Hstr; [| turned_away].
      destruct cands as [| | | | | cs |]; try turned_away.
      destruct cs as [| c0 cs]; [turned_away |].
      destruct (forallb isinstance_str (c0 :: cs)) eqn:Hall.
      * right. exists spec, (c0 :: cs). split; [reflexivity |].
        exists d. repeat split; try assumption. discriminate.
      * cbn in Hall. turned_away.
  - destruct (is_BadRequest e) eqn:Hb; turned_away.
Qed.

Lemma distances_of_calls env t model spec cs :
  request_calls model spec cs
    (snd (run env (distances_of fone fsub model spec cs) t)).
Proof.
  unfold distances_of, request_calls. cbn.
  destruct (env t _ (Encode model [spec])) as [X | e]; cbn; [| eauto].
  destruct (env _ _ (Encode model cs)) as [Y | e]; cbn; [| eauto].
  right. right. exists X, Y.
  destruct (env _ _ (CosineSimilarity X Y)) as [[| r K] | e]; cbn; eauto.
Qed.

(** X1.  Whatever the request, and whatever the calls return or raise
    among the exceptions of [exn] (those that derive from [Exception]),
    the view returns a response, and there are two shapes only: 200 with a
    [distances] list of floats, or 400/500 with an [error] message and no
    [distances] key. *)
Theorem every_answer_is_distances_or_error env t model request :
  exists (r : response) (calls : trace),
    run env (calculate_distances fone fsub model request) t =
      (Return r, calls) /\
    ((status r = 200%Z /\ exists ds : list F, r = ok_response ds) \/
     ((status r = 400%Z \/ status r = 500%Z) /\
      body_key r "distances" = None /\
      exists msg : string, body_key r "error" = Some (PStr msg))).
Proof.
  destruct (calculate_distances_cases request)
    as [(r & Hrun & Hst & Hno & Hmsg) | (spec & cs & Hvalid)].
  - exists r, []. split; [apply Hrun |]. right.
    split; [tauto | split; assumption].
  - rewrite (calculate_distances_valid _ _ _ _ _ _ Hvalid).
    destruct (run env _ t) as [[ds | e] calls].
    + exists (ok_response ds), calls. split; [reflexivity |]. left. eauto.
    + exists (internal_error e), calls. split; [reflexivity |]. right.
      split; [right; reflexivity |]. split; [reflexivity | eauto].
Qed.

(** X2.  The libraries are called for the valid requests and for no
    other: a request that fails a check, or whose body is not an object,
    is answered without any call. *)
Theorem libraries_called_iff_valid env t model request :
  (exists (spec : pyobj F) (cs : list (pyobj F)),
     valid_request request spec cs) <->
  snd (run env (calculate_distances fone fsub model request) t) <> [].
Proof.
  split.
  - intros (spec & cs & Hvalid).
    rewrite (calculate_distances_valid _ _ _ _ _ _ Hvalid).
    pose proof (distances_of_calls env t model spec cs) as Hcalls.
    destruct (run env _ t) as [[ds | e] calls]; cbn in *;
      destruct Hcalls as [(? & ->) | [(? & ? & ->) | (? & ? & ? & ->)]];
      discriminate.
  - intros Hcalls.
    destruct (calculate_distances_cases request)
      as [(r & Hrun & _) | Hvalid]; [| exact Hvalid].
    rewrite Hrun in Hcalls. contradiction.
Qed.

(** X3.  A valid request makes at most three calls, in this order and each
    once: [encode] on the spec alone, [encode] on the candidates list as it
    came, [cosine_similarity] on exactly the two arrays returned.  It stops
    at the first call that raises and never calls again. *)
Theorem valid_request_call_sequence env t model request spec cs :
  valid_request request spec cs ->
  request_calls model spec cs
    (snd (run env (calculate_distances fone fsub model request) t)).
Proof.
  intros Hvalid. rewrite (calculate_distances_valid _ _ _ _ _ _ Hvalid).
  pose proof (distances_of_calls env t model spec cs) as Hcalls.
  destruct (run env _ t) as [[ds | e] calls]; exact Hcalls.
Qed.

(** X4.  On a body that is a JSON object, a 500 never comes from
    validation: the request was valid and the exception was raised by the
    encoding and similarity step, whose message the answer carries. *)
Theorem object_body_500_is_processing_failure env t model request
    (d : gmap string (pyobj F)) (r : response) (calls : trace) :
  get_json request = Return (PDict d) ->
  run env (calculate_distances fone fsub model request) t =
    (Return r, calls) ->
  status r = 500%Z ->
  exists (spec : pyobj F) (cs : list (pyobj F)) (e : exn),
    valid_request request spec cs /\
    run env (distances_of fone fsub model spec cs) t = (Raised e, calls) /\
    r = internal_error e.
Proof.
  intros Hparse Hrun Hst.
  destruct (calculate_distances_cases request)
    as [(r0 & Hrun0 & Hst0 & _) | (spec & cs & Hvalid)].
  - rewrite Hrun0 in Hrun. injection Hrun as -> <-.
    destruct Hst0 as [Hst0 | (_ & _ & Hobj)]; [congruence |].
    unfold object_or_null in Hobj. rewrite Hparse in Hobj. discriminate.
  - exists spec, cs.
    rewrite (calculate_distances_valid _ _ _ _ _ _ Hvalid) in Hrun.
    destruct (run env _ t) as [[ds | e] calls0].
    + injection Hrun as <- <-. discriminate Hst.
    + injection Hrun as <- <-. eauto.
Qed.

(** Only the [spec] and [candidates] entries of the body are read: two
    object bodies that agree on them get the same treatment. *)
Lemma other_fields_are_ignored env t model
    (d1 d2 : gmap string (pyobj F)) :
  d1 !! "spec" = d2 !! "spec" ->
  d1 !! "candidates" = d2 !! "candidates" ->
  run env (calculate_distances fone fsub model
             {| is_json := true; get_json := Return (PDict d1) |}) t =
  run env (calculate_distances fone fsub model
             {| is_json := true; get_json := Return (PDict d2) |}) t.
Proof.
  intros Hs Hc. unfold calculate_distances. cbn. rewrite Hs, Hc. reflexivity.
Qed.

(** X5.  A field other than [spec] and [candidates] changes nothing: the
    body with the field added is answered as the body without it, with the
    same calls. *)
Theorem added_field_changes_nothing env t model
    (d : gmap string (pyobj F)) (key : string) (value : pyobj F) :
  key <> "spec" ->
  key <> "candidates" ->
  run env (calculate_distances fone fsub model
             {| is_json := true;
                get_json := Return (PDict (<[key := value]> d)) |}) t =
  run env (calculate_distances fone fsub model
             {| is_json := true; get_json := Return (PDict d) |}) t.
Proof.
  intros Hs Hc. apply other_fields_are_ignored; apply lookup_insert_ne;
    assumption.
Qed.

(** [lower] gives [y] on the two answers [y] and [Y] and on nothing else. *)
Lemma lower_is_y (s : string) :
  lower s = "y" <-> s = "y" \/ s = "Y".
Proof.
  split.
  - destruct s as [| c [| c' s']]; cbn; try discriminate.
    intros [= Hc].
    destruct c as [[] [] [] [] [] [] [] []]; vm_compute in Hc;
      try discriminate Hc; auto.
  - intros [-> | ->]; reflexivity.
Qed.

(** ** Model files *)

Section Files.

Variable os_path_join : string -> string -> string.
Variable os_path_dirname : string -> string.
Variable __file__ : string.

#[local] Abbreviation MODEL_DIR' :=
  (MODEL_DIR os_path_join os_path_dirname __file__).
#[local] Abbreviation config_path' :=
  (config_path os_path_join os_path_dirname __file__).
#[local] Abbreviation PARENT := (os_path_dirname MODEL_DIR').

#[local] Arguments MODEL_DIR : simpl never.
#[local] Arguments MODEL_HUGGINGFACE : simpl never.
#[local] Arguments config_path : simpl never.
#[local] Arguments String.append : simpl never.
#[local] Arguments lower : simpl never.
#[local] Arguments String.eqb : simpl never.

(** Case analysis on what the oracle answers to the next call. *)
Ltac next_answer env Hprint :=
  cbn;
  first
    [ rewrite Hprint
    | match goal with
      | |- context [env ?t ?X ?ev] =>
          lazymatch X with
          | unit => destruct (env t X ev) as [[] | ?] eqn:?
          | bool => destruct (env t X ev) as [[|] | ?] eqn:?
          | _ => destruct (env t X ev) as [? | ?] eqn:?
          end
      end ].

Ltac close_case :=
  cbn; repeat split; intros;
  repeat match goal with
    | H : _ \/ _ |- _ => destruct H
    | H : _ /\ _ |- _ => destruct H
    | H : exists _, _ |- _ => destruct H
    | H : False |- _ => destruct H
    end;
  simplify_eq; eauto 10;
  repeat first
    [ progress intros
    | progress simplify_eq
    | match goal with
      | |- exists _, _ => eexists
      | |- _ /\ _ => split
      | |- _ = _ => reflexivity
      end ].

(** What a run of start-up shows, read off its calls: the load that
    follows the answers of [os.path.exists], the exception printed and
    re-raised, the model of the service. *)
Lemma startup_trace_facts env t :
  prints_return env ->
  let '(o, calls) :=
    run env (startup os_path_join os_path_dirname __file__) t in
  (path_answers calls = [Return true; Return true] ->
   exists r : outcome Model, storage_ops calls = [Load MODEL_DIR' r]) /\
  (path_answers calls = [Return false] \/
   path_answers calls = [Return true; Return false] ->
   exists (r1 : outcome Model) (rest : list storage_op),
     storage_ops calls = Load MODEL_HUGGINGFACE r1 :: rest /\
     forall m : Model, r1 = Return m ->
       exists (r2 : outcome unit) (rest' : list storage_op),
         rest = Mkdir PARENT true r2 :: rest' /\
         (r2 = Return tt ->
          exists r3 : outcome unit, rest' = [Persist m MODEL_DIR' r3])) /\
  (forall e : exn, In e (raised calls) <-> o = Raised e) /\
  (forall e : exn, o = Raised e ->
     last (printed calls) =
       Some ("Error loading model: " ++ exn_str e)%string) /\
  (forall g : Service, o = Return g ->
     raised calls = [] /\
     exists name : string,
       In (Load name (Return (model g))) (storage_ops calls)).
Proof.
  intros Hprint. unfold startup, load_model, print, call.
  repeat next_answer env Hprint.
  all: close_case.
Qed.

(** Case analysis on every answer, [print] included. *)
Ltac any_answer env :=
  cbn;
  match goal with
  | |- context [env ?t ?X ?ev] =>
      lazymatch X with
      | unit => destruct (env t X ev) as [[] | ?] eqn:?
      | bool => destruct (env t X ev) as [[|] | ?] eqn:?
      | _ => destruct (env t X ev) as [? | ?] eqn:?
      end
  end.

Ltac on_the_answer :=
  cbn;
  try match goal with
    | |- context [String.eqb ?x ?y] =>
        let E := fresh "E" in
        destruct (String.eqb x y) eqn:E;
        [apply String.eqb_eq in E | apply String.eqb_neq in E]
    end;
  cbn [negb].

(** X6.  Given a cache directory, the model is downloaded again exactly
    when the operator types [y] or [Y].  Any other answer, [yes] or an
    empty line included, skips the download: nothing is fetched or saved
    and the script ends on the line "Skipping download.". *)
Theorem redownload_exactly_on_y env t :
  prints_return env ->
  let '(o, calls) :=
    run env (download_model os_path_join os_path_dirname __file__) t in
  forall answer : string,
    path_answers calls = [Return true] ->
    inputs calls = [Return answer] ->
    (answer = "y" \/ answer = "Y" ->
     exists (r : outcome Model) (rest : list storage_op),
       storage_ops calls =
         Mkdir PARENT true (Return tt) :: Load MODEL_HUGGINGFACE r :: rest) /\
    (answer <> "y" -> answer <> "Y" ->
     o = Return PNone /\
     storage_ops calls = [Mkdir PARENT true (Return tt)] /\
     last (printed calls) = Some "Skipping download.").
Proof.
  clear fone fsub.
  intros Hprint. unfold download_model, fetch_and_save, print, call.
  repeat next_answer env Hprint.
  all: on_the_answer.
  all: try rewrite lower_is_y in E.
  all: repeat next_answer env Hprint.
  all: cbn; intros answer Hpath Hin; simplify_eq; split; intros;
    try (exfalso; tauto); close_case.
Qed.

(** X7.  [download_model] handles no exception: whichever call fails, the
    script ends with that exception, at most one call fails, and when
    none does it returns [None]. *)
Theorem download_model_failures_propagate env t :
  let '(o, calls) :=
    run env (download_model os_path_join os_path_dirname __file__) t in
  (forall e : exn, In e (raised calls) <-> o = Raised e) /\
  (raised calls = [] -> o = Return PNone) /\
  length (raised calls) <= 1.
Proof.
  unfold download_model, fetch_and_save, print, call.
  repeat any_answer env.
  all: on_the_answer.
  all: repeat any_answer env.
  all: cbn; repeat split; intros;
    repeat match goal with
      | H : _ \/ _ |- _ => destruct H
      | H : False |- _ => destruct H
      end;
    simplify_eq; auto; lia.
Qed.

(** X8.  [download_model] looks at the cache directory only, never at its
    config.json, and asks the operator at most once, with the one prompt,
    and only after the directory was reported present. *)
Theorem download_model_asks_once env t :
  let '(o, calls) :=
    run env (download_model os_path_join os_path_dirname __file__) t in
  (paths_queried calls = [] \/ paths_queried calls = [MODEL_DIR']) /\
  (prompts calls = [] \/
   (prompts calls = ["Do you want to re-download? (y/n): "] /\
    path_answers calls = [Return true])).
Proof.
  unfold download_model, fetch_and_save, print, call.
  repeat any_answer env.
  all: on_the_answer.
  all: repeat any_answer env.
  all: cbn; split; auto.
Qed.

(** X9.  Start-up does not fall back on the registry: when the directory
    and its config.json are reported present and the local load raises,
    start-up fails with that exception, and the load from the local
    directory is the only call made on the model files. *)
Theorem startup_does_not_fall_back env t :
  prints_return env ->
  let '(o, calls) :=
    run env (startup os_path_join os_path_dirname __file__) t in
  forall e : exn,
    path_answers calls = [Return true; Return true] ->
    In e (raised calls) ->
    o = Raised e /\ storage_ops calls = [Load MODEL_DIR' (Raised e)].
Proof.
  intros Hprint. unfold startup, load_model, print, call.
  repeat next_answer env Hprint.
  all: close_case.
Qed.

(** X10.  Start-up never prompts, and it looks at config.json only after
    the directory was reported present. *)
Theorem startup_checks_directory_first env t :
  let '(o, calls) :=
    run env (startup os_path_join os_path_dirname __file__) t in
  prompts calls = [] /\
  (paths_queried calls = [] \/
   (paths_queried calls = [MODEL_DIR'] /\
    path_answers calls <> [Return true]) \/
   (paths_queried calls = [MODEL_DIR'; config_path'] /\
    head (path_answers calls) = Some (Return true))).
Proof.
  unfold startup, load_model, print, call.
  repeat any_answer env.
  all: cbn; split; [reflexivity |]; auto.
  all: right; left; split; [reflexivity | discriminate].
Qed.

(** Running with what the world is known to answer. *)
Ltac world_step env :=
  cbn;
  match goal with
  | H : context [env] |- _ => rewrite H
  end.

Ltac in_the_world :=
  unfold prints_return, path_exists_is, operator_types, makedirs_returns,
    loads, load_fails, save_returns in *.

(** C9.  At start-up the model is loaded from the local directory exactly
    when the directory and its config.json both exist; otherwise it is
    fetched from the registry, the parent directory is made and the model
    is saved into the local directory.  When the load raises, the
    exception is printed and re-raised, with no other load tried; and
    whatever the calls do, an exception raised by any of them is printed
    and re-raised, and start-up yields a service only with a model that a
    load returned. *)
Theorem startup_on_file_system env t :
  prints_return env ->
  (forall (dir config : bool) (m : Model),
     path_exists_is env MODEL_DIR' dir ->
     path_exists_is env config_path' config ->
     loads env (if dir && config then MODEL_DIR' else MODEL_HUGGINGFACE) m ->
     makedirs_returns env ->
     save_returns env ->
     exists calls : trace,
       run env (startup os_path_join os_path_dirname __file__) t =
         (Return {| model := m |}, calls) /\
       storage_ops calls =
         if dir && config then [Load MODEL_DIR' (Return m)]
         else [Load MODEL_HUGGINGFACE (Return m);
               Mkdir PARENT true (Return tt);
               Persist m MODEL_DIR' (Return tt)]) /\
  (forall (dir config : bool) (e : exn),
     path_exists_is env MODEL_DIR' dir ->
     path_exists_is env config_path' config ->
     load_fails env
       (if dir && config then MODEL_DIR' else MODEL_HUGGINGFACE) e ->
     exists calls : trace,
       run env (startup os_path_join os_path_dirname __file__) t =
         (Raised e, calls) /\
       storage_ops calls =
         [Load (if dir && config then MODEL_DIR' else MODEL_HUGGINGFACE)
            (Raised e)] /\
       last (printed calls) =
         Some ("Error loading model: " ++ exn_str e)%string) /\
  (let '(o, calls) :=
     run env (startup os_path_join os_path_dirname __file__) t in
   (forall e : exn, In e (raised calls) <-> o = Raised e) /\
   (forall e : exn, o = Raised e ->
      last (printed calls) =
        Some ("Error loading model: " ++ exn_str e)%string) /\
   (forall g : Service, o = Return g ->
      raised calls = [] /\
      exists name : string,
        In (Load name (Return (model g))) (storage_ops calls))).
Proof.
  clear fone fsub. intros Hprint. split; [| split].
  - intros dir config m Hdir Hconfig Hload Hmk Hsave. in_the_world.
    unfold startup, load_model, print, call.
    destruct dir, config; cbn in Hload |- *;
      repeat world_step env; cbn; eexists; split; reflexivity.
  - intros dir config e Hdir Hconfig Hload. in_the_world.
    unfold startup, load_model, print, call.
    destruct dir, config; cbn in Hload |- *;
      repeat world_step env; cbn; eexists; repeat split.
  - pose proof (startup_trace_facts env t Hprint) as H.
    destruct (run env _ t) as [o calls].
    destruct H as (_ & _ & H3 & H4 & H5). auto.
Qed.

(** C8, as the script has it.  [download_model] returns [None] whenever it
    returns.  When the cache directory exists and the operator's answer is
    neither [y] nor [Y], nothing is fetched or saved: the only call on the
    file system is [makedirs] on the parent directory.  When the directory
    does not exist, no prompt is shown and the model is fetched from the
    registry and saved into the cache directory; so it is when the
    directory exists and the answer is [y] or [Y]. *)
Theorem download_model_on_file_system env t :
  (forall v : pyobj F,
     fst (run env (download_model os_path_join os_path_dirname __file__) t) =
       Return v ->
     v = PNone) /\
  (prints_return env ->
   makedirs_returns env ->
   (forall answer : string,
      path_exists_is env MODEL_DIR' true ->
      operator_types env answer ->
      answer <> "y" -> answer <> "Y" ->
      exists calls : trace,
        run env (download_model os_path_join os_path_dirname __file__) t =
          (Return PNone, calls) /\
        storage_ops calls = [Mkdir PARENT true (Return tt)]) /\
   (forall m : Model,
      path_exists_is env MODEL_DIR' false ->
      loads env MODEL_HUGGINGFACE m ->
      save_returns env ->
      exists calls : trace,
        run env (download_model os_path_join os_path_dirname __file__) t =
          (Return PNone, calls) /\
        prompts calls = [] /\
        storage_ops calls =
          [Mkdir PARENT true (Return tt);
           Load MODEL_HUGGINGFACE (Return m);
           Persist m MODEL_DIR' (Return tt)]) /\
   (forall (answer : string) (m : Model),
      path_exists_is env MODEL_DIR' true ->
      operator_types env answer ->
      answer = "y" \/ answer = "Y" ->
      loads env MODEL_HUGGINGFACE m ->
      save_returns env ->
      exists calls : trace,
        run env (download_model os_path_join os_path_dirname __file__) t =
          (Return PNone, calls) /\
        storage_ops calls =
          [Mkdir PARENT true (Return tt);
           Load MODEL_HUGGINGFACE (Return m);
           Persist m MODEL_DIR' (Return tt)])).
Proof.
  clear fone fsub. split.
  - unfold download_model, fetch_and_save, print, call.
    repeat any_answer env.
    all: on_the_answer.
    all: repeat any_answer env.
    all: cbn; intros v Hv; simplify_eq; reflexivity.
  - intros Hprint Hmk. split; [| split].
    + intros answer Hdir Hin Hy HY.
      assert (Hl : String.eqb (lower answer) "y" = false).
      { apply String.eqb_neq. rewrite lower_is_y. tauto. }
      in_the_world. unfold download_model, fetch_and_save, print, call.
      repeat world_step env. cbn. rewrite Hl. cbn.
      repeat world_step env. cbn. eexists. split; reflexivity.
    + intros m Hdir Hload Hsave. in_the_world.
      unfold download_model, fetch_and_save, print, call.
      repeat world_step env. cbn. eexists. repeat split.
    + intros answer m Hdir Hin Hy Hload Hsave.
      assert (Hl : String.eqb (lower answer) "y" = true).
      { apply String.eqb_eq. rewrite lower_is_y. exact Hy. }
      in_the_world. unfold download_model, fetch_and_save, print, call.
      repeat world_step env. cbn. rewrite Hl. cbn.
      repeat world_step env. cbn. eexists. split; reflexivity.
Qed.

End Files.

End Properties.

(** * The theorems at work in the concrete world *)

Ltac by_computation :=
  first
    [ reflexivity
    | discriminate
    | split; by_computation
    | eexists; by_computation
    | intros ? ?; reflexivity ].

Lemma malformed_json_is_400_witness :
  is_json unreadable = true /\
  run (example_env quiet) (calculate_distances 1%Z Z.sub "m" unreadable) [] =
    (Return (jsonify {[ "error" := PStr "Invalid JSON format";
                        "details" :=
                          PStr "400 Bad Request: Failed to decode JSON object" ]},
             400%Z), []).
Proof.
  split; [reflexivity |].
  apply (malformed_json_is_400 1%Z Z.sub (example_env quiet) [] "m" unreadable
           (Exn BadRequest "400 Bad Request: Failed to decode JSON object"));
    reflexivity.
Defined.

Lemma distances_one_per_candidate_witness :
  exists (ds : list Z) (calls : trace),
    run (example_env quiet) (calculate_distances 1%Z Z.sub "m" greeting) [] =
      (Return (ok_response ds), calls) /\
    length ds = 2 /\
    ds !! 0 = Some (1 - example_dot [11; 1] [11; 1])%Z /\
    ds !! 1 = Some (1 - example_dot [11; 1] [25; 1])%Z.
Proof.
  destruct (distances_one_per_candidate 1%Z Z.sub (example_env quiet) [] "m"
              greeting (PStr "hello world")
              (map PStr ["hello world"; "completely unrelated text"])
              example_embed example_dot)
    as (ds & calls & Hrun & _ & Hlen & Hnth).
  - by_computation.
  - by_computation.
  - exists ds, calls. split; [exact Hrun |]. split; [exact Hlen |].
    split;
      [apply (Hnth 0 (PStr "hello world"))
      | apply (Hnth 1 (PStr "completely unrelated text"))]; reflexivity.
Defined.

Lemma distance_is_one_minus_similarity_witness :
  exists (ds : list Z) (calls : trace),
    run (example_env quiet) (calculate_distances 1%Z Z.sub "m" greeting) [] =
      (Return (ok_response ds), calls) /\
    ds !! 1 = Some (1 - example_dot [11; 1] [25; 1])%Z.
Proof.
  destruct (distance_is_one_minus_similarity 1%Z Z.sub (example_env quiet) []
              "m" greeting (PStr "hello world")
              (map PStr ["hello world"; "completely unrelated text"])
              example_dot [11; 1]%Z [] [[11; 1]; [25; 1]]%Z)
    as (ds & calls & Hrun & Hnth).
  - by_computation.
  - by_computation.
  - reflexivity.
  - exists ds, calls. split; [exact Hrun |].
    destruct (Hnth 1 (PStr "completely unrelated text") eq_refl)
      as (v & Hv & Hd).
    injection Hv as <-. exact Hd.
Defined.

Lemma empty_strings_reach_encoding_witness :
  first_failing_check blank_candidate = None /\
  run (example_env quiet)
      (calculate_distances 1%Z Z.sub "m" blank_candidate) [] =
    (Return (ok_response [0; -3]%Z),
     [Called (Encode "m" [PStr "abc"]) (Return [[3; 1]]%Z);
      Called (Encode "m" [PStr EmptyString; PStr "a"])
        (Return [[0; 1]; [1; 1]]%Z);
      Called (CosineSimilarity [[3; 1]] [[0; 1]; [1; 1]])%Z
        (Return [[1; 4]]%Z)]).
Proof.
  destruct (empty_strings_reach_encoding 1%Z Z.sub (example_env quiet) [] "m"
              blank_candidate
              {[ "spec" := PStr "abc";
                 "candidates" := PList (map PStr [EmptyString; "a"]) ]}
              "abc" [EmptyString; "a"])
    as (Hcheck & _ & Hrun);
    [by_computation .. | right; left; reflexivity |].
  split; [exact Hcheck |].
  destruct (Hrun [[3; 1]] [[0; 1]; [1; 1]] [1; 4] [])%Z
    as (Hr & _); [by_computation .. |].
  exact Hr.
Defined.

Lemma library_exception_is_500_witness :
  exists calls : trace,
    run (example_env nan_world)
        (serve 1%Z Z.sub {| model := "m" |}
           [POST_calculate_distances greeting; GET_health]) [] =
      (Return ([internal_error (Exn ValueError "Input contains NaN.");
                (jsonify {[ "status" := PStr "healthy";
                            "model" := PStr MODEL_NAME ]}, 200%Z)],
               {| model := "m" |}), calls).
Proof.
  destruct (library_exception_is_500 1%Z Z.sub (example_env nan_world) []
              {| model := "m" |} greeting (PStr "hello world")
              (map PStr ["hello world"; "completely unrelated text"])
              (Exn ValueError "Input contains NaN.") [GET_health])
    as (calls & _ & _ & _ & _ & rs & calls' & Hlater & Hserve).
  - by_computation.
  - right. eexists. split; [reflexivity |]. right.
    eexists. split; reflexivity.
  - injection Hlater as <- <-. eexists. exact Hserve.
Defined.

Ltac world_fact := hnf; intros; reflexivity.

(** With the cache in place start-up loads it; with no cache it fetches
    from the registry and saves. *)
Lemma startup_on_file_system_witness :
  (exists calls : trace,
     run (example_env (cached "n"))
       (startup example_join example_dirname "/srv/main.py") [] =
       (Return {| model := "/srv/models/all-MiniLM-L6-v2" |}, calls) /\
     storage_ops calls =
       [Load "/srv/models/all-MiniLM-L6-v2"
          (Return "/srv/models/all-MiniLM-L6-v2")]) /\
  (exists calls : trace,
     run (example_env quiet)
       (startup example_join example_dirname "/srv/main.py") [] =
       (Return {| model := "sentence-transformers/all-MiniLM-L6-v2" |},
        calls) /\
     storage_ops calls =
       [Load "sentence-transformers/all-MiniLM-L6-v2"
          (Return "sentence-transformers/all-MiniLM-L6-v2");
        Mkdir "/srv/models" true (Return tt);
        Persist "sentence-transformers/all-MiniLM-L6-v2"
          "/srv/models/all-MiniLM-L6-v2" (Return tt)]).
Proof.
  split.
  - destruct (startup_on_file_system example_join example_dirname
                "/srv/main.py" (example_env (cached "n")) []
                ltac:(world_fact)) as (H & _).
    apply (H true true "/srv/models/all-MiniLM-L6-v2"); world_fact.
  - destruct (startup_on_file_system example_join example_dirname
                "/srv/main.py" (example_env quiet) []
                ltac:(world_fact)) as (H & _).
    apply (H false false "sentence-transformers/all-MiniLM-L6-v2");
      world_fact.
Defined.

(** With the cache in place and the operator answering [no], the script
    only makes sure the parent directory exists; with no cache it fetches
    and saves without asking. *)
Lemma download_model_on_file_system_witness :
  (exists calls : trace,
     run (example_env (cached "no"))
       (download_model example_join example_dirname
          "/srv/download_model.py") [] = (Return PNone, calls) /\
     storage_ops calls = [Mkdir "/srv/models" true (Return tt)]) /\
  (exists calls : trace,
     run (example_env quiet)
       (download_model example_join example_dirname
          "/srv/download_model.py") [] = (Return PNone, calls) /\
     prompts calls = [] /\
     storage_ops calls =
       [Mkdir "/srv/models" true (Return tt);
        Load "sentence-transformers/all-MiniLM-L6-v2"
          (Return "sentence-transformers/all-MiniLM-L6-v2");
        Persist "sentence-transformers/all-MiniLM-L6-v2"
          "/srv/models/all-MiniLM-L6-v2" (Return tt)]).
Proof.
  split.
  - destruct (download_model_on_file_system example_join example_dirname
                "/srv/download_model.py" (example_env (cached "no")) [])
      as (_ & H).
    destruct (H ltac:(world_fact) ltac:(world_fact)) as (Hskip & _).
    apply (Hskip "no"); first [world_fact | discriminate].
  - destruct (download_model_on_file_system example_join example_dirname
                "/srv/download_model.py" (example_env quiet) [])
      as (_ & H).
    destruct (H ltac:(world_fact) ltac:(world_fact)) as (_ & Hfetch & _).
    apply (Hfetch "sentence-transformers/all-MiniLM-L6-v2"); world_fact.
Defined.

(** C8 as the specification words it fails twice.  With a complete cache
    entry and the answer [no], what [download_model] returns is [None], not
    the path of the entry; and with the answer [yes], which is not [no],
    nothing is fetched. *)
Lemma download_model_returns_no_path :
  fst (run (example_env (cached "no"))
         (download_model example_join example_dirname "/srv/download_model.py")
         []) <>
    Return (PStr (MODEL_DIR example_join example_dirname
                    "/srv/download_model.py")) /\
  storage_ops
    (snd (run (example_env (cached "yes"))
            (download_model example_join example_dirname
               "/srv/download_model.py") [])) =
    [Mkdir "/srv/models" true (Return tt)].
Proof.
  split; [| reflexivity].
  intros H. vm_compute in H. discriminate H.
Qed.

(** Without a cache and without the registry, start-up prints the error
    and fails with it: no service comes up. *)
Example startup_offline_fails :
  let '(o, calls) :=
    run (example_env offline)
      (startup example_join example_dirname "/srv/main.py") [] in
  o = Raised (Exn OSError "We couldn't connect to 'https://huggingface.co'") /\
  last (printed calls) =
    Some "Error loading model: We couldn't connect to 'https://huggingface.co'" /\
  storage_ops calls =
    [Load "sentence-transformers/all-MiniLM-L6-v2"
       (Raised (Exn OSError
                  "We couldn't connect to 'https://huggingface.co'"))].
Proof. vm_compute. repeat split. Qed.

(** * The range of a distance *)





(** * The further properties in the concrete world *)

Lemma validation_order_witness :
  object_or_null no_spec = true /\
  first_failing_check no_spec = Some spec_present /\
  run (example_env quiet) (calculate_distances 1%Z Z.sub "m" no_spec) [] =
    (Return (bad_request "Missing 'spec' field"), []).
Proof.
  split; [reflexivity |]. split; [reflexivity |].
  apply (validation_order 1%Z Z.sub (example_env quiet) [] "m" no_spec
           spec_present); reflexivity.
Defined.

Lemma valid_request_call_sequence_witness :
  request_calls "m" (PStr "hello world")
    (map PStr ["hello world"; "completely unrelated text"])
    (snd (run (example_env nan_world)
            (calculate_distances 1%Z Z.sub "m" greeting) [])).
Proof.
  apply (valid_request_call_sequence 1%Z Z.sub (example_env nan_world) [] "m"
           greeting).
  by_computation.
Defined.

Lemma object_body_500_is_processing_failure_witness :
  exists (spec : pyobj Z) (cs : list (pyobj Z)) (e : exn),
    valid_request greeting spec cs /\
    fst (run (example_env nan_world) (distances_of 1%Z Z.sub "m" spec cs) []) =
      Raised e /\
    fst (run (example_env nan_world)
           (calculate_distances 1%Z Z.sub "m" greeting) []) =
      Return (internal_error e).
Proof.
  destruct (object_body_500_is_processing_failure 1%Z Z.sub
              (example_env nan_world) [] "m" greeting
              {[ "spec" := PStr "hello world";
                 "candidates" :=
                   PList (map PStr ["hello world";
                                    "completely unrelated text"]) ]}
              (internal_error (Exn ValueError "Input contains NaN."))
              (snd (run (example_env nan_world)
                      (calculate_distances 1%Z Z.sub "m" greeting) [])))
    as (spec & cs & e & Hvalid & Hrun & He); [reflexivity .. |].
  exists spec, cs, e. split; [exact Hvalid |].
  split; [rewrite Hrun; reflexivity |].
  rewrite <- He. reflexivity.
Defined.

Lemma added_field_changes_nothing_witness :
  run (example_env quiet)
    (calculate_distances 1%Z Z.sub "m"
       {| is_json := true;
          get_json :=
            Return (PDict (<[ "lang" := PStr "en" ]>
                             {[ "spec" := PStr "a";
                                "candidates" := PList [PStr "b"] ]})) |}) [] =
  run (example_env quiet)
    (calculate_distances 1%Z Z.sub "m"
       {| is_json := true;
          get_json :=
            Return (PDict {[ "spec" := PStr "a";
                             "candidates" := PList [PStr "b"] ]}) |}) [].
Proof.
  apply (added_field_changes_nothing 1%Z Z.sub (example_env quiet) [] "m");
    discriminate.
Defined.

(** The operator types [yes]: the download is skipped. *)
Lemma redownload_exactly_on_y_witness :
  prints_return (example_env (cached "yes")) /\
  let '(o, calls) :=
    run (example_env (cached "yes"))
      (download_model example_join example_dirname "/srv/download_model.py")
      [] in
  o = Return PNone /\
  storage_ops calls = [Mkdir "/srv/models" true (Return tt)] /\
  last (printed calls) = Some "Skipping download.".
Proof.
  split; [by_computation |].
  pose proof (redownload_exactly_on_y example_join example_dirname
                "/srv/download_model.py" (example_env (cached "yes")) []
                ltac:(by_computation)) as H.
  destruct (run _ _ _) as [o calls] eqn:E.
  vm_compute in E. injection E as <- <-.
  destruct (H "yes" eq_refl eq_refl) as (_ & Hskip).
  apply Hskip; discriminate.
Defined.

(** The cache is there but cannot be loaded: start-up fails, and the
    registry is not tried. *)
Lemma startup_does_not_fall_back_witness :
  prints_return (example_env corrupt_cache) /\
  let '(o, calls) :=
    run (example_env corrupt_cache)
      (startup example_join example_dirname "/srv/main.py") [] in
  o = Raised (Exn OSError "Unable to load weights from checkpoint") /\
  storage_ops calls =
    [Load (MODEL_DIR example_join example_dirname "/srv/main.py")
       (Raised (Exn OSError "Unable to load weights from checkpoint"))].
Proof.
  split; [by_computation |].
  pose proof (startup_does_not_fall_back example_join example_dirname
                "/srv/main.py" (example_env corrupt_cache) []
                ltac:(by_computation)) as H.
  destruct (run _ _ _) as [o calls] eqn:E.
  vm_compute in E. injection E as <- <-.
  apply (H (Exn OSError "Unable to load weights from checkpoint"));
    [reflexivity | left; reflexivity].
Defined.
